(** * Consumo electrico: a shallow embedding of [app_consumo_electrico.py]

    The program is a single-file Flask application.  Its state is the
    module-level list [electrodomesticos] (a list of dicts) together with the
    queue of flashed messages; its four routes are [index], [add],
    [download_csv] and [clear_data].

    Conventions of the embedding
    - a Python [float] is a binary64 number: Rocq's primitive [float], whose
      operations are the IEEE 754 ones that CPython uses;
    - a Python [str] is a [string]; the helpers below agree with Python on
      ASCII text (code points above 127 are outside the model);
    - a Python [dict] with string keys is a [gmap string _];
    - an exception raised inside the [try] block of [add] is a value of
      [exn]; a handler that lets an exception escape returns [None]
      (Flask answers 500 and the state is untouched);
    - the clock is an input: the routes that call [datetime.now()] receive
      the already formatted reading as an argument. *)

From Stdlib Require Import ZArith Floats Ascii String List.
From stdpp Require Import base option gmap strings list.
Import ListNotations.

Local Open Scope string_scope.
Local Open Scope Z_scope.

(** ** Exceptions and the error monad of the [try] block *)

Inductive exn : Type :=
| BadRequestKeyError (key : string)   (* request.form[key], key absent *)
| ValueError (arg : string).          (* float(arg), arg not a number *)

Inductive result (A : Type) : Type :=
| Return (a : A)
| Raise (ex : exn).
Arguments Return {A} a.
Arguments Raise {A} ex.

#[global] Instance result_ret : MRet result := @Return.

#[global] Instance result_bind : MBind result := fun A B k m =>
  match m with
  | Return a => k a
  | Raise ex => Raise ex
  end.

#[global] Instance result_fmap : FMap result := fun A B f m =>
  match m with
  | Return a => Return (f a)
  | Raise ex => Raise ex
  end.

(** ** Python strings and built-ins *)

Module Py.

(** [str.isspace] on one ASCII character, as [str.strip] uses it
    (TAB..CR, FS..US and the space). *)
Definition Py_UNICODE_ISSPACE (c : ascii) : bool :=
  let n := Z.of_N (N_of_ascii c) in
  ((9 <=? n) && (n <=? 13)) || ((28 <=? n) && (n <=? 32)).

(** The C locale's [isspace], as the float parser uses it on ASCII text. *)
Definition Py_ISSPACE (c : ascii) : bool :=
  let n := Z.of_N (N_of_ascii c) in
  ((9 <=? n) && (n <=? 13)) || (n =? 32).

Fixpoint lstrip (sp : ascii -> bool) (s : string) : string :=
  match s with
  | String c s' => if sp c then lstrip sp s' else s
  | EmptyString => EmptyString
  end.

Fixpoint rstrip (sp : ascii -> bool) (s : string) : string :=
  match s with
  | EmptyString => EmptyString
  | String c s' =>
      match rstrip sp s' with
      | EmptyString => if sp c then EmptyString else String c EmptyString
      | r => String c r
      end
  end.

(** [s.strip()] *)
Definition strip (s : string) : string :=
  rstrip Py_UNICODE_ISSPACE (lstrip Py_UNICODE_ISSPACE s).

(** ASCII lower-casing, for the case-insensitive literals of [float()]. *)
Definition lower_ascii (c : ascii) : ascii :=
  let n := N_of_ascii c in
  if ((65 <=? n) && (n <=? 90))%N then ascii_of_N (n + 32) else c.

Fixpoint lower (s : string) : string :=
  match s with
  | EmptyString => EmptyString
  | String c s' => String (lower_ascii c) (lower s')
  end.

(** *** The built-in [float(str)] *)

Definition digit_of (c : ascii) : option Z :=
  let n := Z.of_N (N_of_ascii c) in
  if (48 <=? n) && (n <=? 57) then Some (n - 48) else None.

(** The tail of a [digitpart ::= digit (["_"] digit)*]: the digits read so
    far are [acc] and there are [cnt] of them in the current number. *)
Fixpoint digits_tail (acc cnt : Z) (s : string) : Z * Z * string :=
  match s with
  | String c s' =>
      match digit_of c with
      | Some d => digits_tail (10 * acc + d) (cnt + 1) s'
      | None =>
          if Ascii.eqb c "_"%char then
            match s' with
            | String c' s'' =>
                match digit_of c' with
                | Some d => digits_tail (10 * acc + d) (cnt + 1) s''
                | None => (acc, cnt, s)
                end
            | EmptyString => (acc, cnt, s)
            end
          else (acc, cnt, s)
      end
  | EmptyString => (acc, cnt, s)
  end.

(** An optional [digitpart]: value, number of digits (0 when absent), rest. *)
Definition opt_digitpart (acc : Z) (s : string) : Z * Z * string :=
  match s with
  | String c s' =>
      match digit_of c with
      | Some d => digits_tail (10 * acc + d) 1 s'
      | None => (acc, 0, s)
      end
  | EmptyString => (acc, 0, s)
  end.

(** [number ::= [digitpart] "." digitpart | digitpart ["."]]: the decimal
    mantissa, the number of fraction digits, and the rest. *)
Definition number (s : string) : option (Z * Z * string) :=
  let '(ip, ni, r1) := opt_digitpart 0 s in
  match r1 with
  | String "."%char r2 =>
      let '(m, nf, r3) := opt_digitpart ip r2 in
      if ni + nf =? 0 then None else Some (m, nf, r3)
  | _ => if ni =? 0 then None else Some (ip, 0, r1)
  end.

Definition sign (s : string) : bool * string :=
  match s with
  | String "-"%char s' => (true, s')
  | String "+"%char s' => (false, s')
  | _ => (false, s)
  end.

(** [exponent ::= ("e" | "E") ["+" | "-"] digitpart], or nothing; the whole
    rest of the text has to be consumed. *)
Definition exponent (s : string) : option Z :=
  match s with
  | EmptyString => Some 0
  | String c s' =>
      if Ascii.eqb (lower_ascii c) "e"%char then
        let '(neg, r) := sign s' in
        match opt_digitpart 0 r with
        | (e, n, EmptyString) =>
            if n =? 0 then None else Some (if neg then - e else e)
        | _ => None
        end
      else None
  end.

(** The binary64 number nearest to [(-1)^neg * m * 10^e10] (ties to even),
    which is what CPython's correctly rounded [strtod] returns. *)
Definition of_decimal (neg : bool) (m e10 : Z) : float :=
  SF2Prim
    match m with
    | Zpos p =>
        if 0 <=? e10
        then binary_normalize prec emax
               ((if neg then Z.neg p else Z.pos p) * 10 ^ e10) 0 false
        else SFdiv prec emax (S754_finite neg p 0)
               (S754_finite false (Z.to_pos (10 ^ (- e10))) 0)
    | _ => S754_zero neg
    end.

(** [float(s)] for a [str] argument. *)
Definition float (s : string) : result PrimFloat.float :=
  let '(neg, body) := sign (rstrip Py_ISSPACE (lstrip Py_ISSPACE s)) in
  let l := lower body in
  if String.eqb l "inf" || String.eqb l "infinity" then
    Return (if neg then neg_infinity else infinity)
  else if String.eqb l "nan" then Return nan
  else
    match number body with
    | Some (m, nf, r) =>
        match exponent r with
        | Some e => Return (of_decimal neg m (e - nf))
        | None => Raise (ValueError s)
        end
    | None => Raise (ValueError s)
    end.

(** *** Numbers *)

(** The conversion of an [int] operand in mixed arithmetic. *)
Definition float_of_int (z : Z) : PrimFloat.float :=
  SF2Prim (binary_normalize prec emax z 0 false).

End Py.


(** ** Values, dicts and the dynamic operations on them *)

Inductive pyval : Type :=
| VStr (s : string)
| VFloat (f : float)
| VInt (z : Z).

(** [a + b]; [None] is a [TypeError]. *)
Definition py_add (a b : pyval) : option pyval :=
  match a, b with
  | VInt x, VInt y => Some (VInt (x + y))
  | VInt x, VFloat y => Some (VFloat (Py.float_of_int x + y))
  | VFloat x, VInt y => Some (VFloat (x + Py.float_of_int y))
  | VFloat x, VFloat y => Some (VFloat (x + y))
  | VStr x, VStr y => Some (VStr (x ++ y))
  | _, _ => None
  end.

(** The built-in [sum(iterable)]: the items are added to the start value,
    the [int] 0, from left to right.  (CPython 3.12 and later add a run of
    floats with a compensated loop, which may differ from the plain loop in
    the last place; what is summed and in which order is the same.) *)
Definition py_sum (items : list pyval) : option pyval :=
  foldl (fun acc x => a ← acc; py_add a x) (Some (VInt 0)) items.

(** [v > n] for an [int] literal [n] that a float represents exactly;
    [None] is a [TypeError]. *)
Definition py_gt (v : pyval) (n : Z) : option bool :=
  match v with
  | VFloat f => Some (Py.float_of_int n <? f)%float
  | VInt z => Some (n <? z)
  | VStr _ => None
  end.

(** ** The state of the process *)

(** TARIFA = 700  # COP por kWh *)
Definition TARIFA : Z := 700.

(** A flashed message: a text, or the text [f"Error al agregar: {ex}"],
    whose tail is the library's rendering of the exception. *)
Inductive message : Type :=
| Text (s : string)
| ErrorAlAgregar (ex : exn).

(** [electrodomesticos] is the module-level list of dicts; [flashes] is the
    queue that [flash] appends to and that [get_flashed_messages] empties
    (one browser session). *)
Record state : Type := {
  electrodomesticos : list (gmap string pyval);
  flashes : list message
}.

Definition initial : state := {| electrodomesticos := []; flashes := [] |}.

Definition flash (m : message) (st : state) : state :=
  {| electrodomesticos := electrodomesticos st; flashes := flashes st ++ [m] |}.

(** ** Responses *)

Inductive tier : Type := ALERTA | Advertencia | OK.

(** One [<tr>] of the summary table.  A cell that Jinja finds undefined is
    [None]; the two formatted cells hold the number before formatting. *)
Record row : Type := {
  td_nombre : option pyval;
  td_potencia_W : option pyval;
  td_horas_diarias : option pyval;
  td_consumo_mensual_kWh : pyval;
  td_costo_pesos : pyval;
  td_badge : tier
}.

Inductive resumen : Type :=
| NoHay                                     (* the placeholder paragraph *)
| Tabla (rows : list row) (total_consumo total_costo : pyval).

Record page : Type := {
  alerts : list message;       (* the flashed messages, shown once *)
  card : resumen;              (* "Resumen de consumo" *)
  footer : Z                   (* the tariff shown on the page *)
}.

Inductive response : Type :=
| Redirect (endpoint : string)
| Html (p : page)
| SendFile (mimetype download_name : string) (table : list (list pyval)).

(** ** The template [BASE_HTML] *)

(** The [if]/[elif]/[else] of the last column, on a float. *)
Definition classify (consumo : float) : tier :=
  if (50 <? consumo)%float then ALERTA
  else if (30 <? consumo)%float then Advertencia
  else OK.

(** The same chain on whatever value the dict holds. *)
Definition badge (consumo : pyval) : option tier :=
  gt50 ← py_gt consumo 50;
  if gt50 : bool then Some ALERTA
  else gt30 ← py_gt consumo 30;
       Some (if gt30 : bool then Advertencia else OK).

(** ['%.2f'|format(v)] needs a number; the digits are not modelled. *)
Definition format_f (v : pyval) : option pyval :=
  match v with
  | VStr _ => None
  | _ => Some v
  end.

Definition render_row (e : gmap string pyval) : option row :=
  consumo ← e !! "consumo_mensual_kWh";
  costo ← e !! "costo_pesos";
  c1 ← format_f consumo;
  c2 ← format_f costo;
  b ← badge consumo;
  Some {| td_nombre := e !! "nombre";
          td_potencia_W := e !! "potencia_W";
          td_horas_diarias := e !! "horas_diarias";
          td_consumo_mensual_kWh := c1;
          td_costo_pesos := c2;
          td_badge := b |}.

(** The keyword arguments that [index] passes to the template. *)
Record context : Type := {
  items : list (gmap string pyval);
  total_consumo : pyval;
  total_costo : pyval;
  tarifa : Z
}.

Definition render_template_string (messages : list message) (ctx : context)
    : option page :=
  match items ctx with
  | [] => Some {| alerts := messages; card := NoHay; footer := tarifa ctx |}
  | _ =>
      rows ← mapM render_row (items ctx);
      t1 ← format_f (total_consumo ctx);
      t2 ← format_f (total_costo ctx);
      Some {| alerts := messages; card := Tabla rows t1 t2;
              footer := tarifa ctx |}
  end.

(** ** The routes *)

(** [sum(e[k] for e in electrodomesticos)] *)
Definition sum_field (k : string) (l : list (gmap string pyval)) : option pyval :=
  mapM (fun e : gmap string pyval => e !! k) l ≫= py_sum.

(** The two sums of [index] and the arguments of the render call; [None]
    when an exception escapes. *)
Definition index_context (st : state) : option context :=
  total_c ← sum_field "costo_pesos" (electrodomesticos st);
  total_kwh ← sum_field "consumo_mensual_kWh" (electrodomesticos st);
  Some {| items := electrodomesticos st; total_consumo := total_kwh;
          total_costo := total_c; tarifa := TARIFA |}.

(** [index]; rendering the page empties the queue of flashed messages. *)
Definition index (st : state) : option (state * response) :=
  ctx ← index_context st;
  p ← render_template_string (flashes st) ctx;
  Some ({| electrodomesticos := electrodomesticos st; flashes := [] |}, Html p).

(** [request.form[k]] *)
Definition form_get (form : gmap string string) (k : string) : result string :=
  match form !! k with
  | Some v => Return v
  | None => Raise (BadRequestKeyError k)
  end.

(** The dict literal appended by [add]. *)
Definition nuevo (nombre : string) (potencia horas consumo_mensual costo : float)
    (timestamp : string) : gmap string pyval :=
  list_to_map
    [ ("nombre", VStr nombre);
      ("potencia_W", VFloat potencia);
      ("horas_diarias", VFloat horas);
      ("consumo_mensual_kWh", VFloat consumo_mensual);
      ("costo_pesos", VFloat costo);
      ("timestamp", VStr timestamp) ].

(** The body of the [try] block of [add], up to the dict it appends. *)
Definition add_try (form : gmap string string) (now : string)
    : result (string * gmap string pyval) :=
  nombre ← Py.strip <$> form_get form "nombre";
  potencia ← form_get form "potencia" ≫= Py.float;
  horas ← form_get form "horas" ≫= Py.float;
  let consumo_diario := ((potencia * horas) / 1000.0)%float in
  let consumo_mensual := (consumo_diario * Py.float_of_int 30)%float in
  let costo := (consumo_mensual * Py.float_of_int TARIFA)%float in
  Return (nombre, nuevo nombre potencia horas consumo_mensual costo now).

(** The two derived fields in closed form, with the literals as floats. *)
Definition kWh_mes (potencia horas : float) : float :=
  (potencia * horas / 1000 * 30)%float.

Definition cop_mes (potencia horas : float) : float :=
  (kWh_mes potencia horas * 700)%float.

(** An entry as [add] builds it from a name and two parsed numbers. *)
Definition added (e : gmap string pyval) : Prop :=
  exists nombre p h now,
    e = nuevo nombre p h (kWh_mes p h) (cop_mes p h) now.

(** The derived fields of an entry are the ones computed from its power
    and hours. *)
Definition derived_ok (e : gmap string pyval) : Prop :=
  exists p h,
    e !! "potencia_W" = Some (VFloat p) /\
    e !! "horas_diarias" = Some (VFloat h) /\
    e !! "consumo_mensual_kWh" = Some (VFloat (kWh_mes p h)) /\
    e !! "costo_pesos" = Some (VFloat (cop_mes p h)).

(** A row of the table shows the fields of an entry. *)
Definition shows (e : gmap string pyval) (r : row) : Prop :=
  td_nombre r = e !! "nombre" /\
  td_potencia_W r = e !! "potencia_W" /\
  td_horas_diarias r = e !! "horas_diarias" /\
  Some (td_consumo_mensual_kWh r) = e !! "consumo_mensual_kWh" /\
  Some (td_costo_pesos r) = e !! "costo_pesos" /\
  Some (td_badge r) = e !! "consumo_mensual_kWh" ≫= badge.

(** What makes the [try] block of [add] raise: a field that is absent or a
    number that does not parse. *)
Definition rejected (form : gmap string string) : Prop :=
  form !! "nombre" = None \/
  form !! "potencia" = None \/
  form !! "horas" = None \/
  (exists s ex, form !! "potencia" = Some s /\ Py.float s = Raise ex) \/
  (exists s ex, form !! "horas" = Some s /\ Py.float s = Raise ex).

(** A form with the three fields of the page. *)
Definition form_of (nombre potencia horas : string) : gmap string string :=
  list_to_map [("nombre", nombre); ("potencia", potencia); ("horas", horas)].

(** [add]; [now] is [datetime.now().isoformat()]. *)
Definition add (form : gmap string string) (now : string) (st : state)
    : state * response :=
  match add_try form now with
  | Return (nombre, e) =>
      (flash (Text (nombre ++ " agregado correctamente."))
         {| electrodomesticos := electrodomesticos st ++ [e];
            flashes := flashes st |},
       Redirect "index")
  | Raise ex => (flash (ErrorAlAgregar ex) st, Redirect "index")
  end.

(** [csv.DictWriter] over a buffer of rows (the text encoding of a row is
    the [csv] module's and is not modelled). *)
Module csv.

Definition writeheader (fieldnames : list string) (out : list (list pyval))
    : list (list pyval) :=
  out ++ [VStr <$> fieldnames].

Definition writerow (fieldnames : list string) (rowdict : gmap string pyval)
    (out : list (list pyval)) : list (list pyval) :=
  out ++ [(fun k => default (VStr "") (rowdict !! k)) <$> fieldnames].

End csv.

Definition fieldnames : list string :=
  ["nombre"; "potencia_W"; "horas_diarias"; "consumo_mensual_kWh";
   "costo_pesos"; "timestamp"].

(** [{k: e.get(k, '') for k in fieldnames}] *)
Definition get_all (e : gmap string pyval) : gmap string pyval :=
  list_to_map ((fun k => (k, default (VStr "") (e !! k))) <$> fieldnames).

(** [download_csv]; [now] is [datetime.now().strftime('%Y%m%d_%H%M%S')]. *)
Definition download_csv (now : string) (st : state) : state * response :=
  match electrodomesticos st with
  | [] => (flash (Text "No hay datos para descargar.") st, Redirect "index")
  | _ =>
      let output := csv.writeheader fieldnames [] in
      let output :=
        foldl (fun out e => csv.writerow fieldnames (get_all e) out)
          output (electrodomesticos st) in
      (st, SendFile "text/csv" ("consumo_" ++ now ++ ".csv") output)
  end.

(** [clear_data] *)
Definition clear_data (st : state) : state * response :=
  (flash (Text "Datos limpiados.")
     {| electrodomesticos := []; flashes := flashes st |},
   Redirect "index").

(** ** Requests and runs *)

Inductive request : Type :=
| GET_index
| POST_add (form : gmap string string) (now : string)
| GET_download (now : string)
| GET_clear.

(** One request; the response is [None] when the handler fails (the state
    is then the one before the request). *)
Definition handle (r : request) (st : state) : state * option response :=
  match r with
  | GET_index =>
      match index st with
      | Some (st', resp) => (st', Some resp)
      | None => (st, None)
      end
  | POST_add form now => let '(st', resp) := add form now st in (st', Some resp)
  | GET_download now => let '(st', resp) := download_csv now st in (st', Some resp)
  | GET_clear => let '(st', resp) := clear_data st in (st', Some resp)
  end.

Definition is_add (r : request) : bool :=
  match r with
  | POST_add _ _ => true
  | _ => false
  end.

(** The total of a run of floats as [sum] returns it: the [int] 0 of an
    empty run, otherwise the floats added to 0 from left to right. *)
Definition float_total (l : list float) : pyval :=
  match l with
  | [] => VInt 0
  | _ => VFloat (foldl PrimFloat.add 0%float l)
  end.

(** The state after a sequence of requests. *)
Definition run (rs : list request) (st : state) : state :=
  foldl (fun st r => fst (handle r st)) st rs.

(** ** Observations on a run *)

Definition is_clear (r : request) : bool :=
  match r with
  | GET_clear => true
  | _ => false
  end.

Definition is_index (r : request) : bool :=
  match r with
  | GET_index => true
  | _ => false
  end.

(** A request whose [try] block in [add] runs to its end. *)
Definition accepts (r : request) : bool :=
  match r with
  | POST_add form now =>
      match add_try form now with
      | Return _ => true
      | Raise _ => false
      end
  | _ => false
  end.

(** The entry that a request appends, when it is an accepted [add]. *)
Definition entry_of (r : request) : option (gmap string pyval) :=
  match r with
  | POST_add form now =>
      match add_try form now with
      | Return (_, e) => Some e
      | Raise _ => None
      end
  | _ => None
  end.

(** The messages that a response shows: the alerts of a rendered page. *)
Definition displayed (resp : option response) : list message :=
  match resp with
  | Some (Html p) => alerts p
  | _ => []
  end.

(** All the messages shown along a run, in the order of the requests. *)
Fixpoint shown (rs : list request) (st : state) : list message :=
  match rs with
  | [] => []
  | r :: rs => displayed (handle r st).2 ++ shown rs (handle r st).1
  end.

(** The first, the last character of a text is one that [sp] holds of. *)
Definition starts_with (sp : ascii -> bool) (s : string) : bool :=
  match s with
  | String c _ => sp c
  | EmptyString => false
  end.

Fixpoint ends_with (sp : ascii -> bool) (s : string) : bool :=
  match s with
  | EmptyString => false
  | String c EmptyString => sp c
  | String _ s' => ends_with sp s'
  end.

(** The name under which an entry is stored is a text without blanks at
    either end. *)
Definition name_trimmed (e : gmap string pyval) : Prop :=
  exists s,
    e !! "nombre" = Some (VStr s) /\
    starts_with Py.Py_UNICODE_ISSPACE s = false /\
    ends_with Py.Py_UNICODE_ISSPACE s = false /\
    Py.strip s = s.

(** [str(ex)], the tail of the error notice, as far as it tells failures
    apart.  werkzeug prints a [BadRequestKeyError] as the fixed description
    of a 400 response, without the key: the key is added only once Flask's
    own error handler has seen the exception, and [add] catches it before.
    [float] prints the text it was given. *)
Inductive description : Type :=
| BadRequest                       (* 400 Bad Request: The browser ... *)
| could_not_convert (arg : string). (* could not convert string to float: *)

Definition str (ex : exn) : description :=
  match ex with
  | BadRequestKeyError _ => BadRequest
  | ValueError arg => could_not_convert arg
  end.

(** * Properties *)

(** ** The parser and the helpers on the inputs of the scenario *)

Example float_150 : Py.float "150" = Return 150%float.
Proof. reflexivity. Qed.

Example float_padded_negative : Py.float " -5 " = Return (-5)%float.
Proof. reflexivity. Qed.

Example float_fraction : Py.float "0.1" = Return 0x1.999999999999ap-4%float.
Proof. reflexivity. Qed.

Example float_underscore_exponent :
  Py.float "1_0.5E-1" = Return 0x1.0cccccccccccdp+0%float.
Proof. reflexivity. Qed.

Example float_overflow : Py.float "1e400" = Return infinity.
Proof. reflexivity. Qed.

Example float_underflow : Py.float "-1e-400" = Return neg_zero.
Proof. reflexivity. Qed.

Example float_subnormal : Py.float "5e-324" = Return 0x1p-1074%float.
Proof. reflexivity. Qed.

Example float_nan : Py.float "NaN" = Return nan.
Proof. reflexivity. Qed.

Example float_rejects :
  Py.float "abc" = Raise (ValueError "abc") /\
  Py.float "" = Raise (ValueError "") /\
  Py.float "." = Raise (ValueError ".") /\
  Py.float "1e" = Raise (ValueError "1e") /\
  Py.float "1__0" = Raise (ValueError "1__0") /\
  Py.float "12 3" = Raise (ValueError "12 3").
Proof. repeat split; reflexivity. Qed.

Example strip_both_ends : Py.strip "  Nevera 2 " = "Nevera 2".
Proof. reflexivity. Qed.

Example strip_blank : Py.strip "   " = "".
Proof. reflexivity. Qed.

(** ** Comparisons of binary64 numbers with the two thresholds *)

Section Thresholds.

Local Open Scope float_scope.

Lemma float_of_int_30 : Py.float_of_int 30 = 30.
Proof. reflexivity. Qed.

Lemma float_of_int_50 : Py.float_of_int 50 = 50.
Proof. reflexivity. Qed.

Lemma float_of_int_TARIFA : Py.float_of_int TARIFA = 700.
Proof. reflexivity. Qed.

Lemma Prim2SF_30 : Prim2SF 30 = S754_finite false 8444249301319680 (-48).
Proof. reflexivity. Qed.

Lemma Prim2SF_50 : Prim2SF 50 = S754_finite false 7036874417766400 (-47).
Proof. reflexivity. Qed.

Lemma is_nan_spec (x : float) : is_nan x = true <-> Prim2SF x = S754_nan.
Proof.
  unfold is_nan. rewrite FloatAxioms.eqb_spec.
  destruct (Prim2SF x) as [s|s| |s m e]; cbn.
  - split; discriminate.
  - destruct s; split; discriminate.
  - split; reflexivity.
  - unfold SFeqb, SFcompare. destruct s; rewrite Z.compare_refl;
      rewrite Pos.compare_cont_spec, Pos.compare_refl; cbn;
      split; discriminate.
Qed.

(** Case analysis on the number behind [x] in a goal made of comparisons
    of [x] with 30 and 50. *)
Ltac by_cases_on x :=
  rewrite ?FloatAxioms.ltb_spec, ?FloatAxioms.leb_spec, ?is_nan_spec,
    ?Prim2SF_30, ?Prim2SF_50;
  destruct (Prim2SF x) as [[|]|[|]| |[|] m e];
  unfold SFltb, SFleb, SFcompare;
  rewrite ?Pos.compare_cont_spec; unfold Pos.switch_Eq;
  rewrite ?(Z.compare_antisym (-47) e), ?(Z.compare_antisym (-48) e),
    ?(Pos.compare_antisym 7036874417766400 m),
    ?(Pos.compare_antisym 8444249301319680 m);
  repeat match goal with
    | |- context [(?a ?= e)%Z] => destruct (Z.compare_spec a e)
    end;
  try (exfalso; lia);
  repeat match goal with
    | |- context [(?a ?= m)%positive] => destruct (a ?= m)%positive
    end;
  cbn [CompOpp]; intros;
  first [ reflexivity | discriminate
        | split; reflexivity | left; reflexivity | right; reflexivity ].

Lemma ltb_50_30 (x : float) : (50 <? x) = true -> (30 <? x) = true.
Proof. by_cases_on x. Qed.

Lemma leb_50_ltb (x : float) : (x <=? 50) = true -> (50 <? x) = false.
Proof. by_cases_on x. Qed.

Lemma ltb_30_leb_50 (x : float) :
  (30 <? x) = true -> (50 <? x) = false -> (x <=? 50) = true.
Proof. by_cases_on x. Qed.

Lemma leb_30_ltb (x : float) : (x <=? 30) = true -> (30 <? x) = false.
Proof. by_cases_on x. Qed.

Lemma not_ltb_30 (x : float) :
  (30 <? x) = false -> (x <=? 30) = true \/ is_nan x = true.
Proof. by_cases_on x. Qed.

Lemma is_nan_ltb (x : float) :
  is_nan x = true -> (30 <? x) = false /\ (50 <? x) = false.
Proof. by_cases_on x. Qed.
End Thresholds.

(** ** The classifier *)

Section Classifier.

Local Open Scope float_scope.

Lemma badge_float (x : float) : badge (VFloat x) = Some (classify x).
Proof.
  unfold badge, classify, py_gt. cbn.
  rewrite float_of_int_50, float_of_int_30.
  destruct (50 <? x); cbn; [reflexivity|].
  destruct (30 <? x); reflexivity.
Qed.

Lemma classify_ALERTA (x : float) : classify x = ALERTA <-> (50 <? x) = true.
Proof.
  unfold classify. destruct (50 <? x); [tauto|].
  destruct (30 <? x); split; discriminate.
Qed.

Lemma classify_Advertencia (x : float) :
  classify x = Advertencia <-> (30 <? x) = true /\ (x <=? 50) = true.
Proof.
  unfold classify. split.
  - destruct (50 <? x) eqn:H50; [discriminate|].
    destruct (30 <? x) eqn:H30; [|discriminate].
    intros _. split; [reflexivity|]. now apply ltb_30_leb_50.
  - intros [H30 H50]. apply leb_50_ltb in H50. now rewrite H50, H30.
Qed.

Lemma classify_OK (x : float) :
  classify x = OK <-> (x <=? 30) = true \/ is_nan x = true.
Proof.
  unfold classify. split.
  - destruct (50 <? x); [discriminate|].
    destruct (30 <? x) eqn:H30; [discriminate|].
    intros _. now apply not_ltb_30.
  - intros [H|H].
    + apply leb_30_ltb in H.
      destruct (50 <? x) eqn:H50; [apply ltb_50_30 in H50; congruence|].
      now rewrite H.
    + apply is_nan_ltb in H as [H30 H50]. now rewrite H50, H30.
Qed.

End Classifier.

#[local] Set Warnings "-inexact-float".

(** C3 (as amended).  The chain of the template is [classify] on the float
    of an entry; it yields ALERTA exactly when the energy is above 50,
    Advertencia exactly when it is above 30 and at most 50, and OK exactly
    when it is at most 30 or is not a number; 50 is Advertencia and 30 is
    OK, the next values of the spec's list are ALERTA and Advertencia. *)
Theorem classify_tiers (x : float) :
  badge (VFloat x) = Some (classify x) /\
  (classify x = ALERTA <-> (50 <? x)%float = true) /\
  (classify x = Advertencia <->
     (30 <? x)%float = true /\ (x <=? 50)%float = true) /\
  (classify x = OK <-> (x <=? 30)%float = true \/ is_nan x = true) /\
  classify 50 = Advertencia /\ classify 30 = OK /\
  classify 50.0001 = ALERTA /\ classify 30.0001 = Advertencia.
Proof.
  split; [apply badge_float|].
  split; [apply classify_ALERTA|].
  split; [apply classify_Advertencia|].
  split; [apply classify_OK|].
  repeat split; reflexivity.
Qed.

(** C3, the claim as stated fails: the value NaN, which [add] stores for
    the input "nan", is classified OK although it is not at most 30. *)
Lemma classify_OK_beyond_leb_30 :
  ~ (forall x : float, classify x = OK <-> (x <=? 30)%float = true).
Proof.
  intros H. destruct (H nan) as [H1 _].
  specialize (H1 eq_refl). vm_compute in H1. discriminate H1.
Qed.

(** ** The dict that [add] appends *)

Section Nuevo.

Context (nombre : string) (potencia horas consumo costo : float)
        (timestamp : string).

Local Abbreviation e :=
  (nuevo nombre potencia horas consumo costo timestamp).

Lemma nuevo_nombre : e !! "nombre" = Some (VStr nombre).
Proof. reflexivity. Qed.

Lemma nuevo_potencia_W : e !! "potencia_W" = Some (VFloat potencia).
Proof. reflexivity. Qed.

Lemma nuevo_horas_diarias : e !! "horas_diarias" = Some (VFloat horas).
Proof. reflexivity. Qed.

Lemma nuevo_consumo_mensual_kWh :
  e !! "consumo_mensual_kWh" = Some (VFloat consumo).
Proof. reflexivity. Qed.

Lemma nuevo_costo_pesos : e !! "costo_pesos" = Some (VFloat costo).
Proof. reflexivity. Qed.

Lemma nuevo_timestamp : e !! "timestamp" = Some (VStr timestamp).
Proof. reflexivity. Qed.

Lemma nuevo_dom : dom e = list_to_set fieldnames.
Proof. reflexivity. Qed.

Lemma nuevo_get_all : get_all e = e.
Proof. reflexivity. Qed.

Lemma nuevo_cells :
  (fun k => default (VStr "") (e !! k)) <$> fieldnames =
  [VStr nombre; VFloat potencia; VFloat horas; VFloat consumo;
   VFloat costo; VStr timestamp].
Proof. reflexivity. Qed.

End Nuevo.

(** ** The route [add] *)

Section Add.

Context (form : gmap string string) (now : string).

Lemma add_try_Return (nombre potencia horas : string) (p h : float) :
  form !! "nombre" = Some nombre ->
  form !! "potencia" = Some potencia ->
  form !! "horas" = Some horas ->
  Py.float potencia = Return p ->
  Py.float horas = Return h ->
  add_try form now =
    Return (Py.strip nombre,
            nuevo (Py.strip nombre) p h (kWh_mes p h) (cop_mes p h) now).
Proof.
  intros Hn Hp Hh Fp Fh. unfold add_try, form_get.
  rewrite Hn, Hp, Hh. cbn. rewrite Fp. cbn. rewrite Fh. reflexivity.
Qed.

Lemma add_try_inv (nombre : string) (e : gmap string pyval) :
  add_try form now = Return (nombre, e) ->
  exists raw potencia horas p h,
    form !! "nombre" = Some raw /\ nombre = Py.strip raw /\
    form !! "potencia" = Some potencia /\ Py.float potencia = Return p /\
    form !! "horas" = Some horas /\ Py.float horas = Return h /\
    e = nuevo nombre p h (kWh_mes p h) (cop_mes p h) now.
Proof.
  unfold add_try, form_get.
  destruct (form !! "nombre") as [raw|]; [|discriminate]. cbn.
  destruct (form !! "potencia") as [potencia|]; [|discriminate]. cbn.
  destruct (Py.float potencia) as [p|] eqn:Fp; [|discriminate]. cbn.
  destruct (form !! "horas") as [horas|]; [|discriminate]. cbn.
  destruct (Py.float horas) as [h|] eqn:Fh; [|discriminate]. cbn.
  intros [= <- <-]. exists raw, potencia, horas, p, h.
  repeat split; assumption || reflexivity.
Qed.

Lemma add_try_added (nombre : string) (e : gmap string pyval) :
  add_try form now = Return (nombre, e) -> added e.
Proof.
  intros H. apply add_try_inv in H as (?&?&?&p&h&?&?&?&?&?&?&->).
  now exists nombre, p, h, now.
Qed.

Lemma add_try_Raise : rejected form <-> exists ex, add_try form now = Raise ex.
Proof.
  unfold rejected, add_try, form_get. split.
  - intros H.
    destruct (form !! "nombre") as [raw|]; cbn; [|eauto].
    destruct (form !! "potencia") as [potencia|]; cbn; [|eauto].
    destruct (Py.float potencia) as [p|ex] eqn:Fp; cbn; [|eauto].
    destruct (form !! "horas") as [horas|]; cbn; [|eauto].
    destruct (Py.float horas) as [h|ex] eqn:Fh; cbn; [|eauto].
    destruct H as [H|[H|[H|[(s&ex&H&F)|(s&ex&H&F)]]]];
      try discriminate; injection H as <-; congruence.
  - intros [ex H].
    destruct (form !! "nombre") as [raw|]; cbn in H; [|tauto].
    destruct (form !! "potencia") as [potencia|]; cbn in H; [|tauto].
    destruct (Py.float potencia) as [p|ex1] eqn:Fp; cbn in H;
      [|right; right; right; left; eauto].
    destruct (form !! "horas") as [horas|]; cbn in H; [|tauto].
    destruct (Py.float horas) as [h|ex2] eqn:Fh; cbn in H;
      [discriminate|right; right; right; right; eauto].
Qed.

Lemma add_Return (st : state) (nombre : string) (e : gmap string pyval) :
  add_try form now = Return (nombre, e) ->
  add form now st =
    ({| electrodomesticos := electrodomesticos st ++ [e];
        flashes := flashes st ++ [Text (nombre ++ " agregado correctamente.")] |},
     Redirect "index").
Proof. intros H. unfold add. now rewrite H. Qed.

Lemma add_Raise (st : state) (ex : exn) :
  add_try form now = Raise ex ->
  add form now st =
    ({| electrodomesticos := electrodomesticos st;
        flashes := flashes st ++ [ErrorAlAgregar ex] |},
     Redirect "index").
Proof. intros H. unfold add. now rewrite H. Qed.

(** The part of the validation that [add] does perform: a rejected form
    leaves the list as it was and queues one error notice. *)
Lemma add_rejected (st : state) :
  rejected form ->
  exists ex,
    add form now st =
      ({| electrodomesticos := electrodomesticos st;
          flashes := flashes st ++ [ErrorAlAgregar ex] |},
       Redirect "index").
Proof.
  intros H. apply add_try_Raise in H as [ex H].
  exists ex. now apply add_Raise.
Qed.

(** [add] changes the list by at most one appended entry. *)
Lemma add_store (st : state) :
  electrodomesticos (add form now st).1 = electrodomesticos st \/
  exists e, added e /\
    electrodomesticos (add form now st).1 =
      (electrodomesticos st ++ [e])%list.
Proof.
  destruct (add_try form now) as [[nombre e]|ex] eqn:H.
  - right. exists e. split; [now apply add_try_added in H|].
    now rewrite (add_Return st _ _ H).
  - left. now rewrite (add_Raise st _ H).
Qed.

End Add.

(** ** Runs and the invariant of the list *)

Lemma run_cons (r : request) (rs : list request) (st : state) :
  run (r :: rs) st = run rs (handle r st).1.
Proof. reflexivity. Qed.

Lemma run_snoc (rs : list request) (r : request) (st : state) :
  run (rs ++ [r]) st = (handle r (run rs st)).1.
Proof. unfold run. now rewrite foldl_app. Qed.

Lemma index_store (st st' : state) (resp : response) :
  index st = Some (st', resp) -> electrodomesticos st' = electrodomesticos st.
Proof.
  unfold index. intros H.
  destruct (index_context st); [|discriminate]. cbn in H.
  destruct (render_template_string _ _); [|discriminate].
  now injection H as <- _.
Qed.

Lemma download_csv_store (now : string) (st : state) :
  electrodomesticos (download_csv now st).1 = electrodomesticos st.
Proof.
  unfold download_csv. destruct (electrodomesticos st) eqn:E; cbn; congruence.
Qed.

(** How one request changes the list: the two reads leave it alone, [add]
    appends at most one entry, [clear_data] empties it. *)
Lemma handle_store (r : request) (st : state) :
  match r with
  | GET_index | GET_download _ =>
      electrodomesticos (handle r st).1 = electrodomesticos st
  | POST_add _ _ =>
      electrodomesticos (handle r st).1 = electrodomesticos st \/
      exists e, added e /\
        electrodomesticos (handle r st).1 = (electrodomesticos st ++ [e])%list
  | GET_clear => electrodomesticos (handle r st).1 = []
  end.
Proof.
  destruct r as [|form now|now|]; cbn.
  - destruct (index st) as [[st' resp]|] eqn:H; [|reflexivity].
    now apply index_store in H.
  - pose proof (add_store form now st) as H.
    now destruct (add form now st).
  - pose proof (download_csv_store now st) as H.
    now destruct (download_csv now st).
  - reflexivity.
Qed.

Lemma handle_added (r : request) (st : state) :
  Forall added (electrodomesticos st) ->
  Forall added (electrodomesticos (handle r st).1).
Proof.
  intros H. pose proof (handle_store r st) as Hs.
  destruct r; try (now rewrite Hs).
  destruct Hs as [->|(e&He&->)]; [assumption|].
  apply Forall_app. split; [assumption|]. now constructor.
Qed.

Lemma run_added (rs : list request) (st : state) :
  Forall added (electrodomesticos st) ->
  Forall added (electrodomesticos (run rs st)).
Proof.
  revert st. induction rs as [|r rs IH]; intros st H; [assumption|].
  rewrite run_cons. apply IH. now apply handle_added.
Qed.

Lemma reachable_added (rs : list request) :
  Forall added (electrodomesticos (run rs initial)).
Proof. apply run_added. constructor. Qed.

Lemma added_derived_ok (e : gmap string pyval) : added e -> derived_ok e.
Proof. intros (nombre&p&h&now&->). exists p, h. repeat split. Qed.


(** ** The route [index] on a list of added entries *)

Lemma foldl_py_add_floats (a : float) (cs : list float) :
  foldl (fun acc x => acc ≫= fun v => py_add v x) (Some (VFloat a))
    (VFloat <$> cs) =
  Some (VFloat (foldl PrimFloat.add a cs)).
Proof.
  revert a. induction cs as [|c cs IH]; intros a; [reflexivity|].
  cbn. apply IH.
Qed.

Lemma py_sum_floats (cs : list float) :
  py_sum (VFloat <$> cs) = Some (float_total cs).
Proof.
  destruct cs as [|c cs]; [reflexivity|].
  unfold py_sum. cbn. apply foldl_py_add_floats.
Qed.

Lemma sum_field_floats (k : string) (es : list (gmap string pyval))
    (cs : list float) :
  Forall2 (fun e c => e !! k = Some (VFloat c)) es cs ->
  sum_field k es = Some (float_total cs).
Proof.
  intros H. unfold sum_field.
  rewrite (mapM_Some_2 _ es (VFloat <$> cs)).
  - cbn. apply py_sum_floats.
  - now apply Forall2_fmap_r.
Qed.

Lemma added_fields (es : list (gmap string pyval)) :
  Forall added es ->
  exists ks cs,
    Forall2 (fun e k => e !! "consumo_mensual_kWh" = Some (VFloat k)) es ks /\
    Forall2 (fun e c => e !! "costo_pesos" = Some (VFloat c)) es cs.
Proof.
  induction 1 as [|e es (nombre&p&h&now&->) _ (ks&cs&Hk&Hc)].
  - exists [], []. split; constructor.
  - exists (kWh_mes p h :: ks), (cop_mes p h :: cs).
    split; constructor; trivial.
Qed.

Lemma render_row_nuevo (nombre : string) (p h k c : float) (now : string) :
  render_row (nuevo nombre p h k c now) =
    Some {| td_nombre := Some (VStr nombre);
            td_potencia_W := Some (VFloat p);
            td_horas_diarias := Some (VFloat h);
            td_consumo_mensual_kWh := VFloat k;
            td_costo_pesos := VFloat c;
            td_badge := classify k |}.
Proof.
  unfold render_row.
  rewrite nuevo_consumo_mensual_kWh, nuevo_costo_pesos. cbn -[badge].
  now rewrite badge_float.
Qed.

Lemma render_row_added (e : gmap string pyval) :
  added e -> exists r, render_row e = Some r /\ shows e r.
Proof.
  intros (nombre&p&h&now&->). eexists. split; [apply render_row_nuevo|].
  unfold shows.
  rewrite nuevo_consumo_mensual_kWh, nuevo_costo_pesos. cbn -[badge].
  rewrite badge_float. repeat split.
Qed.

Lemma render_rows_added (es : list (gmap string pyval)) :
  Forall added es ->
  exists rows, mapM render_row es = Some rows /\ Forall2 shows es rows.
Proof.
  induction 1 as [|e es He _ (rows&Hm&Hs)].
  - exists []. split; [reflexivity|constructor].
  - destruct (render_row_added e He) as (r&Hr&Hsh).
    exists (r :: rows). split; [|now constructor].
    cbn. rewrite Hr. cbn. now rewrite Hm.
Qed.

Lemma float_total_number (l : list float) :
  format_f (float_total l) = Some (float_total l).
Proof. now destruct l. Qed.

(** On a list of added entries [index] does not fail: the page has one row
    per entry, in order, and the totals are the left-to-right sums of the
    stored energy and cost. *)
Lemma index_added (st : state) :
  Forall added (electrodomesticos st) ->
  exists ks cs rows,
    Forall2 (fun e k => e !! "consumo_mensual_kWh" = Some (VFloat k))
      (electrodomesticos st) ks /\
    Forall2 (fun e c => e !! "costo_pesos" = Some (VFloat c))
      (electrodomesticos st) cs /\
    Forall2 shows (electrodomesticos st) rows /\
    index_context st =
      Some {| items := electrodomesticos st;
              total_consumo := float_total ks;
              total_costo := float_total cs; tarifa := 700 |} /\
    index st =
      Some ({| electrodomesticos := electrodomesticos st; flashes := [] |},
            Html {| alerts := flashes st;
                    card := match electrodomesticos st with
                            | [] => NoHay
                            | _ => Tabla rows (float_total ks) (float_total cs)
                            end;
                    footer := 700 |}).
Proof.
  intros H.
  destruct (added_fields _ H) as (ks&cs&Hk&Hc).
  destruct (render_rows_added _ H) as (rows&Hm&Hs).
  exists ks, cs, rows.
  assert (index_context st =
      Some {| items := electrodomesticos st;
              total_consumo := float_total ks;
              total_costo := float_total cs; tarifa := 700 |}) as Hctx.
  { unfold index_context.
    rewrite (sum_field_floats _ _ _ Hc), (sum_field_floats _ _ _ Hk).
    reflexivity. }
  repeat split; try assumption.
  unfold index. rewrite Hctx. cbn. unfold render_template_string. cbn.
  destruct (electrodomesticos st) as [|e es] eqn:E; [reflexivity|].
  rewrite Hm. cbn. now rewrite !float_total_number.
Qed.

(** ** The route [download_csv] *)

Lemma foldl_writerow (out : list (list pyval)) (es : list (gmap string pyval)) :
  foldl (fun out e => csv.writerow fieldnames (get_all e) out) out es =
  (out ++ ((fun e => (fun k => default (VStr "") (get_all e !! k))
                       <$> fieldnames) <$> es))%list.
Proof.
  revert out. induction es as [|e es IH]; intros out; cbn.
  - now rewrite app_nil_r.
  - rewrite IH. unfold csv.writerow. now rewrite <- app_assoc.
Qed.

Lemma added_row (e : gmap string pyval) :
  added e ->
  Forall2 (fun k c => e !! k = Some c) fieldnames
    ((fun k => default (VStr "") (get_all e !! k)) <$> fieldnames).
Proof.
  intros (nombre&p&h&now&->). rewrite nuevo_get_all, nuevo_cells.
  repeat constructor.
Qed.

Lemma lookups_found (e : gmap string pyval) (ks : list string)
    (cs : list pyval) :
  Forall2 (fun k c => e !! k = Some c) ks cs ->
  (e !!.) <$> ks = Some <$> cs.
Proof.
  induction 1 as [|k c ks cs Hk _ IH]; [reflexivity|].
  cbn. now rewrite Hk, IH.
Qed.

Lemma download_csv_empty (now : string) (st : state) :
  electrodomesticos st = [] ->
  download_csv now st =
    (flash (Text "No hay datos para descargar.") st, Redirect "index").
Proof. intros H. unfold download_csv. now rewrite H. Qed.

Lemma download_csv_added (now : string) (st : state) :
  electrodomesticos st <> [] ->
  Forall added (electrodomesticos st) ->
  exists rows,
    download_csv now st =
      (st, SendFile "text/csv" ("consumo_" ++ now ++ ".csv")
             ((VStr <$> fieldnames) :: rows)) /\
    Forall2 (fun e r => Forall2 (fun k c => e !! k = Some c) fieldnames r)
      (electrodomesticos st) rows.
Proof.
  intros Hne H. unfold download_csv.
  destruct (electrodomesticos st) as [|e es] eqn:E; [congruence|].
  eexists. split.
  - rewrite foldl_writerow. reflexivity.
  - apply Forall2_fmap_r, Forall_Forall2_diag.
    eapply Forall_impl; [exact H|]. apply added_row.
Qed.

(** C5.  In every reachable state, [download_csv] on an empty list builds
    no table: it answers with the redirect to [index], leaves the list
    empty and puts exactly one notice at the end of the queue; the notice
    is shown once, by the next [index], which empties the queue.  On a list
    that is not empty it leaves the state alone and sends a table made of
    the header row followed by one row per entry, in the order of the list,
    whose cells are the values stored in the entry under the six field
    names. *)
Theorem download_csv_table (rs : list request) (now : string) :
  let st := run rs initial in
  match electrodomesticos st with
  | [] =>
      let notice := Text "No hay datos para descargar." in
      download_csv now st =
        ({| electrodomesticos := []; flashes := flashes st ++ [notice] |},
         Redirect "index") /\
      index (download_csv now st).1 =
        Some ({| electrodomesticos := []; flashes := [] |},
              Html {| alerts := flashes st ++ [notice]; card := NoHay;
                      footer := TARIFA |})
  | _ =>
      exists rows,
        download_csv now st =
          (st, SendFile "text/csv" ("consumo_" ++ now ++ ".csv")
                 ((VStr <$> fieldnames) :: rows)) /\
        length rows = length (electrodomesticos st) /\
        Forall2 (fun e r => Forall2 (fun k c => e !! k = Some c) fieldnames r)
          (electrodomesticos st) rows
  end.
Proof.
  intros st. pose proof (reachable_added rs) as H. fold st in H.
  destruct (electrodomesticos st) as [|e es] eqn:E.
  - intros notice. rewrite (download_csv_empty now st E).
    unfold flash. rewrite E. split; reflexivity.
  - rewrite <- E in *.
    destruct (download_csv_added now st) as (rows&Hd&Hr);
      [congruence|assumption|].
    exists rows. repeat split; try assumption.
    symmetry. now apply Forall2_length in Hr.
Qed.

(** C8.  Every entry of a reachable state has exactly the six keys of
    [fieldnames], so [e.get(k, '')] finds [e[k]] for each of them (the dict
    built for the writer is the entry itself), and every row of the table
    that [download_csv] sends has six cells, each the value the entry holds
    under the field of its column. *)
Theorem entries_have_the_six_fields (rs : list request) (now : string) :
  let st := run rs initial in
  Forall (fun e : gmap string pyval =>
            dom e = list_to_set fieldnames /\
            Forall (fun k => is_Some (e !! k)) fieldnames /\
            get_all e = e)
    (electrodomesticos st) /\
  match (download_csv now st).2 with
  | SendFile _ _ table =>
      exists rows,
        table = (VStr <$> fieldnames) :: rows /\
        Forall2 (fun (e : gmap string pyval) r =>
                   length r = 6%nat /\ (e !!.) <$> fieldnames = Some <$> r)
          (electrodomesticos st) rows
  | _ => electrodomesticos st = []
  end.
Proof.
  intros st. pose proof (reachable_added rs) as H. fold st in H. split.
  - eapply Forall_impl; [exact H|].
    intros e (nombre&p&h&t&->). split; [apply nuevo_dom|].
    split; [|apply nuevo_get_all].
    repeat constructor; eexists; reflexivity.
  - destruct (electrodomesticos st) as [|e es] eqn:E.
    + rewrite (download_csv_empty now st E). reflexivity.
    + rewrite <- E in *.
      destruct (download_csv_added now st) as (rows&Hd&Hr);
        [congruence|assumption|].
      rewrite Hd. cbn. exists rows. split; [reflexivity|].
      eapply Forall2_impl; [exact Hr|].
      intros x r Hx. split.
      * apply Forall2_length in Hx. now rewrite <- Hx.
      * exact (lookups_found x fieldnames r Hx).
Qed.

(** ** The claims on [add] *)

(** C2 (as amended).  For a power and a number of hours that parse and are
    not negative, [add] appends one entry that holds the parsed power and
    hours, the energy [power * hours / 1000 * 30] and the cost
    [energy * 700], each operation being the binary64 one, in this order,
    and nothing rounding the results afterwards. *)
Theorem add_stores_derived_fields (form : gmap string string) (now : string)
    (st : state) (nombre potencia horas : string) (p h : float) :
  form !! "nombre" = Some nombre ->
  form !! "potencia" = Some potencia ->
  form !! "horas" = Some horas ->
  Py.float potencia = Return p ->
  Py.float horas = Return h ->
  (0 <=? p)%float = true ->
  (0 <=? h)%float = true ->
  exists e,
    electrodomesticos (add form now st).1 = (electrodomesticos st ++ [e])%list /\
    e !! "potencia_W" = Some (VFloat p) /\
    e !! "horas_diarias" = Some (VFloat h) /\
    e !! "consumo_mensual_kWh" = Some (VFloat (p * h / 1000 * 30)%float) /\
    e !! "costo_pesos" = Some (VFloat (p * h / 1000 * 30 * 700)%float).
Proof.
  intros Hn Hp Hh Fp Fh _ _.
  pose proof (add_try_Return form now nombre potencia horas p h
                Hn Hp Hh Fp Fh) as H.
  eexists. split; [now rewrite (add_Return form now st _ _ H)|].
  repeat split.
Qed.

Lemma add_stores_derived_fields_witness :
  exists e,
    electrodomesticos (add (form_of "Fridge" "150" "24") "t" initial).1 = [e] /\
    e !! "potencia_W" = Some (VFloat 150) /\
    e !! "horas_diarias" = Some (VFloat 24) /\
    e !! "consumo_mensual_kWh" = Some (VFloat (150 * 24 / 1000 * 30)%float) /\
    e !! "costo_pesos" = Some (VFloat (150 * 24 / 1000 * 30 * 700)%float).
Proof.
  exact (add_stores_derived_fields (form_of "Fridge" "150" "24") "t" initial
           "Fridge" "150" "24" 150 24
           eq_refl eq_refl eq_refl eq_refl eq_refl eq_refl eq_refl).
Defined.

(** C2, the claim as stated fails: for 9 W during 1 hour a day, both
    non-negative, the stored energy [9 * 1 / 1000 * 30] is the float
    0.26999999999999996, while [9 * 1 * 0.03] is the next float up, 0.27. *)
Lemma add_energy_is_not_times_003 :
  exists e p h,
    electrodomesticos (add (form_of "Foco" "9" "1") "t" initial).1 = [e] /\
    e !! "potencia_W" = Some (VFloat p) /\
    e !! "horas_diarias" = Some (VFloat h) /\
    (0 <=? p)%float = true /\ (0 <=? h)%float = true /\
    e !! "consumo_mensual_kWh" = Some (VFloat 0.26999999999999996) /\
    (p * h * 0.03)%float = 0.27%float /\
    e !! "consumo_mensual_kWh" <> Some (VFloat (p * h * 0.03)%float).
Proof.
  eexists _, 9%float, 1%float. split; [reflexivity|].
  repeat split. intros H.
  apply (f_equal (fun o => match o with
                           | Some (VFloat x) => PrimFloat.eqb x 0.27
                           | _ => false
                           end)) in H.
  vm_compute in H. discriminate H.
Qed.

(** C1, what the code does on the inputs that the claim wants refused: a
    name made of blanks and a negative power both parse, so [add] appends
    an entry with the empty name and a negative energy, and the notice it
    queues is the confirmation, not an error. *)
Theorem add_accepts_blank_name_and_negative_power :
  Py.strip "   " = "" /\
  Py.float "-5" = Return (-5)%float /\
  add (form_of "   " "-5" "2") "t" initial =
    ({| electrodomesticos :=
          [nuevo "" (-5) 2 (kWh_mes (-5) 2) (cop_mes (-5) 2) "t"];
        flashes := [Text " agregado correctamente."] |},
     Redirect "index") /\
  (kWh_mes (-5) 2 <? 0)%float = true.
Proof. repeat split. Qed.

(** C9.  [add] has no check of the sign: whenever the three fields are
    present and the two numbers parse, whatever their sign, the entry is
    appended; an entry with a negative energy is reachable (power "-5",
    hours "2"); and every entry whose energy is at most 30, so every entry
    whose energy is negative, gets the badge OK. *)
Theorem add_has_no_sign_check :
  (forall form now st nombre potencia horas p h,
     form !! "nombre" = Some nombre ->
     form !! "potencia" = Some potencia ->
     form !! "horas" = Some horas ->
     Py.float potencia = Return p ->
     Py.float horas = Return h ->
     electrodomesticos (add form now st).1 =
       (electrodomesticos st ++
          [nuevo (Py.strip nombre) p h (kWh_mes p h) (cop_mes p h) now])%list) /\
  (exists e k,
     electrodomesticos (run [POST_add (form_of "Estufa" "-5" "2") "t"] initial)
       = [e] /\
     e !! "consumo_mensual_kWh" = Some (VFloat k) /\
     (k <? 0)%float = true /\
     td_badge <$> render_row e = Some OK) /\
  (forall k : float,
     (k <=? 30)%float = true ->
     classify k = OK /\ badge (VFloat k) = Some OK) /\
  (forall nombre p h k c now,
     (k <=? 30)%float = true ->
     td_badge <$> render_row (nuevo nombre p h k c now) = Some OK).
Proof.
  assert (forall k : float, (k <=? 30)%float = true -> classify k = OK) as HOK.
  { intros k Hk. apply classify_OK. now left. }
  split; [|split; [|split]].
  - intros form now st nombre potencia horas p h Hn Hp Hh Fp Fh.
    now rewrite (add_Return form now st _ _
                   (add_try_Return form now nombre potencia horas p h
                      Hn Hp Hh Fp Fh)).
  - eexists _, _. split; [reflexivity|]. repeat split.
  - intros k Hk. split; [now apply HOK|].
    rewrite badge_float. now rewrite HOK.
  - intros nombre p h k c now Hk. rewrite render_row_nuevo. cbn.
    now rewrite HOK.
Qed.

Lemma add_has_no_sign_check_witness :
  electrodomesticos (add (form_of "Estufa" "-5" "2") "t" initial).1 =
    [nuevo "Estufa" (-5) 2 (kWh_mes (-5) 2) (cop_mes (-5) 2) "t"] /\
  td_badge <$> render_row
    (nuevo "Estufa" (-5) 2 (kWh_mes (-5) 2) (cop_mes (-5) 2) "t") = Some OK.
Proof.
  split.
  - exact (proj1 add_has_no_sign_check (form_of "Estufa" "-5" "2") "t" initial
             "Estufa" "-5" "2" (-5)%float 2%float
             eq_refl eq_refl eq_refl eq_refl eq_refl).
  - exact (proj2 (proj2 (proj2 add_has_no_sign_check))
             "Estufa" (-5)%float 2%float (kWh_mes (-5) 2) (cop_mes (-5) 2) "t"
             eq_refl).
Defined.

(** ** The claims on the summary and on [clear_data] *)



(** The scenario of the specification, evaluated: the two rows, their
    badges and the totals 109.5 kWh and 76650 COP. *)
Example scenario_fridge_lamp :
  snd <$> index (run [POST_add (form_of "Fridge" "150" "24") "t1";
                      POST_add (form_of "Lamp" "10" "5") "t2"] initial) =
  Some (Html {| alerts := [Text "Fridge agregado correctamente.";
                           Text "Lamp agregado correctamente."];
                card := Tabla
                  [ {| td_nombre := Some (VStr "Fridge");
                       td_potencia_W := Some (VFloat 150);
                       td_horas_diarias := Some (VFloat 24);
                       td_consumo_mensual_kWh := VFloat 108;
                       td_costo_pesos := VFloat 75600;
                       td_badge := ALERTA |};
                    {| td_nombre := Some (VStr "Lamp");
                       td_potencia_W := Some (VFloat 10);
                       td_horas_diarias := Some (VFloat 5);
                       td_consumo_mensual_kWh := VFloat 1.5;
                       td_costo_pesos := VFloat 1050;
                       td_badge := OK |} ]
                  (VFloat 109.5) (VFloat 76650);
                footer := 700 |}).
Proof. vm_compute. reflexivity. Qed.

Lemma index_empty (st : state) :
  electrodomesticos st = [] ->
  index_context st =
    Some {| items := []; total_consumo := VInt 0; total_costo := VInt 0;
            tarifa := 700 |} /\
  index st =
    Some ({| electrodomesticos := []; flashes := [] |},
          Html {| alerts := flashes st; card := NoHay; footer := 700 |}).
Proof.
  intros H. unfold index, index_context. rewrite H. split; reflexivity.
Qed.

(** Requests other than [add] keep an empty list empty. *)
Lemma run_reads_empty (rs : list request) (st : state) :
  forallb (fun r => negb (is_add r)) rs = true ->
  electrodomesticos st = [] ->
  electrodomesticos (run rs st) = [].
Proof.
  revert st. induction rs as [|r rs IH]; intros st Hrs Hst; [assumption|].
  cbn in Hrs. apply andb_prop in Hrs as [Hr Hrs].
  rewrite run_cons. apply IH; [assumption|].
  pose proof (handle_store r st) as H.
  destruct r; try discriminate; congruence.
Qed.

(** C6.  [clear_data] empties the list whatever it held; after it, and
    through any requests that are not [add], the list stays empty: [index]
    is passed no entry and the totals 0 and 0 and renders the placeholder,
    and [download_csv] has nothing to send. *)
Theorem clear_then_read (st : state) (rs : list request) :
  forallb (fun r => negb (is_add r)) rs = true ->
  let st' := run (GET_clear :: rs) st in
  electrodomesticos (clear_data st).1 = [] /\
  electrodomesticos st' = [] /\
  index_context st' =
    Some {| items := []; total_consumo := VInt 0; total_costo := VInt 0;
            tarifa := 700 |} /\
  index st' =
    Some ({| electrodomesticos := []; flashes := [] |},
          Html {| alerts := flashes st'; card := NoHay; footer := 700 |}) /\
  forall now, (download_csv now st').2 = Redirect "index".
Proof.
  intros Hrs st'.
  assert (electrodomesticos st' = []) as H.
  { unfold st'. rewrite run_cons. now apply run_reads_empty. }
  destruct (index_empty st' H) as [Hctx Hidx].
  repeat split; try assumption.
  intros now. now rewrite (download_csv_empty now st' H).
Qed.

Lemma clear_then_read_witness :
  let st := run [POST_add (form_of "Fridge" "150" "24") "t1";
                 POST_add (form_of "Lamp" "10" "5") "t2"] initial in
  let rs := [GET_index; GET_download "20250101_120000"; GET_clear] in
  length (electrodomesticos st) = 2%nat /\
  electrodomesticos (run (GET_clear :: rs) st) = [] /\
  index_context (run (GET_clear :: rs) st) =
    Some {| items := []; total_consumo := VInt 0; total_costo := VInt 0;
            tarifa := 700 |}.
Proof.
  intros st rs. split; [reflexivity|].
  pose proof (clear_then_read st rs eq_refl) as T.
  split; [exact (proj1 (proj2 T))|exact (proj1 (proj2 (proj2 T)))].
Defined.

(** C7.  In every reachable state each entry holds, as its energy and cost,
    the values computed from its own power and hours; and a request changes
    the list in one of three ways only: it leaves it as it is (the two
    reads, and a refused [add]), it appends one such entry at the end
    ([add]), or it empties the list ([clear_data]).  So no entry already in
    the list is ever modified. *)
Theorem derived_fields_invariant (rs : list request) (r : request) :
  let st := run rs initial in
  let st' := (handle r st).1 in
  Forall derived_ok (electrodomesticos st) /\
  Forall derived_ok (electrodomesticos st') /\
  match r with
  | GET_index | GET_download _ =>
      electrodomesticos st' = electrodomesticos st
  | POST_add _ _ =>
      electrodomesticos st' = electrodomesticos st \/
      exists e, derived_ok e /\
        electrodomesticos st' = (electrodomesticos st ++ [e])%list
  | GET_clear => electrodomesticos st' = []
  end.
Proof.
  intros st st'.
  pose proof (reachable_added rs) as H. fold st in H.
  pose proof (handle_added r st H) as H'. fold st' in H'.
  split; [eapply Forall_impl; [exact H|apply added_derived_ok]|].
  split; [eapply Forall_impl; [exact H'|apply added_derived_ok]|].
  pose proof (handle_store r st) as Hs. fold st' in Hs.
  destruct r; try assumption.
  destruct Hs as [Hs|(e&He&Hs)]; [now left|].
  right. exists e. split; [now apply added_derived_ok|assumption].
Qed.

(** C10.  [clear_data] on a list that is already empty answers as on any
    other: the list is empty afterwards, the notice is queued and the
    response is the redirect; two [clear_data] in a row leave the list as
    one does. *)
Theorem clear_data_idempotent (st : state) :
  let st1 := (clear_data st).1 in
  let st2 := (clear_data st1).1 in
  electrodomesticos st1 = [] /\
  clear_data st1 =
    ({| electrodomesticos := [];
        flashes := flashes st1 ++ [Text "Datos limpiados."] |},
     Redirect "index") /\
  electrodomesticos st2 = electrodomesticos st1 /\
  electrodomesticos (run [GET_clear; GET_clear] st) =
    electrodomesticos (run [GET_clear] st) /\
  (clear_data st).2 = Redirect "index" /\
  (handle GET_clear st1).2 = Some (Redirect "index").
Proof. repeat split. Qed.

(** * Further properties of the routes *)

(** ** [index] in the reachable states *)

(** What [index] computes depends on the flashed messages only for the
    alerts of the page. *)
Lemma index_without_flashes (st st' : state) (p : page) :
  index st = Some (st', Html p) ->
  index {| electrodomesticos := electrodomesticos st; flashes := [] |} =
    Some ({| electrodomesticos := electrodomesticos st; flashes := [] |},
          Html {| alerts := []; card := card p; footer := footer p |}).
Proof.
  destruct st as [es fl]. unfold index, index_context.
  cbn [electrodomesticos flashes].
  destruct (sum_field "costo_pesos" es) as [tc|]; [|discriminate].
  destruct (sum_field "consumo_mensual_kWh" es) as [tk|]; [|discriminate].
  unfold render_template_string.
  cbn [mbind option_bind items total_consumo total_costo tarifa].
  destruct es as [|e es].
  - cbn. intros [= <- <-]. reflexivity.
  - destruct (mapM render_row (e :: es)) as [rows|]; [|discriminate].
    cbn [mbind option_bind].
    destruct (format_f tk); [|discriminate].
    destruct (format_f tc); [|discriminate].
    cbn. intros [= <- <-]. reflexivity.
Qed.

(** X1.  In every reachable state [index] answers with a page (no exception
    escapes): it leaves the list as it is, shows the queued messages in
    order and empties the queue, shows the tariff 700, and shows the
    placeholder exactly when the list is empty.  A second [index] right
    after shows the same card and no message. *)
Theorem index_reachable (rs : list request) :
  let st := run rs initial in
  exists p,
    index st =
      Some ({| electrodomesticos := electrodomesticos st; flashes := [] |},
            Html p) /\
    alerts p = flashes st /\
    footer p = TARIFA /\
    (card p = NoHay <-> electrodomesticos st = []) /\
    index (handle GET_index st).1 =
      Some ((handle GET_index st).1,
            Html {| alerts := []; card := card p; footer := TARIFA |}).
Proof.
  intros st. pose proof (reachable_added rs) as H. fold st in H.
  destruct (index_added st H) as (ks&cs&rows&_&_&_&_&Hidx).
  eexists. split; [exact Hidx|]. cbn.
  split; [reflexivity|]. split; [reflexivity|]. split.
  - destruct (electrodomesticos st); split; congruence.
  - unfold handle. rewrite Hidx. cbn [fst].
    exact (index_without_flashes st _ _ Hidx).
Qed.

(** ** The queue of flashed messages *)

Lemma index_alerts (st st' : state) (resp : response) :
  index st = Some (st', resp) ->
  flashes st' = [] /\ exists p, resp = Html p /\ alerts p = flashes st.
Proof.
  unfold index.
  destruct (index_context st) as [ctx|]; [|discriminate].
  cbn [mbind option_bind]. unfold render_template_string.
  destruct (items ctx).
  - cbn. intros [= <- <-]. split; [reflexivity|]. eexists. now split.
  - destruct (mapM render_row _); [|discriminate]. cbn [mbind option_bind].
    destruct (format_f (total_consumo ctx)); [|discriminate].
    destruct (format_f (total_costo ctx)); [|discriminate].
    cbn. intros [= <- <-]. split; [reflexivity|]. eexists. now split.
Qed.

(** One request: what it shows and what it leaves queued is what was
    queued before, followed by at most one new message (none for [index]). *)
Lemma handle_notices (r : request) (st : state) :
  exists new,
    (displayed (handle r st).2 ++ flashes (handle r st).1 =
       flashes st ++ new)%list /\
    (length new <= if is_index r then 0 else 1)%nat.
Proof.
  destruct r as [|form now|now|]; cbn [handle is_index].
  - exists []. split; [|reflexivity]. rewrite app_nil_r.
    destruct (index st) as [[st' resp]|] eqn:H; [|reflexivity].
    apply index_alerts in H as (Hq&p&->&Hp). cbn. now rewrite Hq, app_nil_r.
  - unfold add. destruct (add_try form now) as [[nombre e]|ex];
      cbn; eexists; (split; [reflexivity|cbn; lia]).
  - unfold download_csv. destruct (electrodomesticos st); cbn.
    + eexists. split; [reflexivity|cbn; lia].
    + exists []. split; [now rewrite app_nil_r|cbn; lia].
  - cbn. eexists. split; [reflexivity|cbn; lia].
Qed.

(** X2.  Along any run no flashed message is lost and none is shown twice:
    the messages shown so far followed by the ones still queued are the
    ones queued at the start followed by the new ones, in order, and there
    is at most one new message per request other than [index]. *)
Theorem notices_shown_once (rs : list request) (st : state) :
  exists queued,
    (shown rs st ++ flashes (run rs st) = flashes st ++ queued)%list /\
    (length queued <=
       length (List.filter (fun r => negb (is_index r)) rs))%nat.
Proof.
  revert st. induction rs as [|r rs IH]; intros st.
  - exists []. split; [now rewrite app_nil_r|reflexivity].
  - destruct (handle_notices r st) as (new&Hn&Hl).
    destruct (IH (handle r st).1) as (queued&Hq&Hlq).
    exists (new ++ queued)%list. split.
    + rewrite run_cons. cbn [shown].
      rewrite <- app_assoc, Hq, !app_assoc. now rewrite Hn.
    + rewrite length_app. cbn [List.filter].
      destruct (is_index r); cbn [negb length] in *; lia.
Qed.

(** ** The outcome of [add] *)

(** X3.  [add] has exactly two outcomes, and the notice tells which: the
    form is not rejected, one entry built from the stripped name and the
    two parsed numbers is appended and the confirmation naming the stripped
    name is queued; or the form is rejected (a field is absent or a number
    does not parse), the list is left as it was and one error notice is
    queued.  Both answer with the redirect to [index]. *)
Theorem add_outcome (form : gmap string string) (now : string) (st : state) :
  (~ rejected form /\
   exists raw potencia horas p h,
     form !! "nombre" = Some raw /\
     form !! "potencia" = Some potencia /\ Py.float potencia = Return p /\
     form !! "horas" = Some horas /\ Py.float horas = Return h /\
     add form now st =
       ({| electrodomesticos :=
             electrodomesticos st ++
               [nuevo (Py.strip raw) p h (kWh_mes p h) (cop_mes p h) now];
           flashes :=
             flashes st ++
               [Text (Py.strip raw ++ " agregado correctamente.")] |},
        Redirect "index")) \/
  (rejected form /\
   exists ex,
     add form now st =
       ({| electrodomesticos := electrodomesticos st;
           flashes := flashes st ++ [ErrorAlAgregar ex] |},
        Redirect "index")).
Proof.
  destruct (add_try form now) as [[nombre e]|ex] eqn:H.
  - left. split.
    + intros Hr. apply (add_try_Raise form now) in Hr as [ex Hr].
      congruence.
    + pose proof (add_Return form now st nombre e H) as Ha.
      apply add_try_inv in H
        as (raw&potencia&horas&p&h&Hn&->&Hp&Fp&Hh&Fh&->).
      exists raw, potencia, horas, p, h. now repeat split.
  - right. split.
    + apply (add_try_Raise form now). now exists ex.
    + exists ex. now apply add_Raise.
Qed.

(** The exception of [float] carries the text it was given. *)
Lemma float_Raise (s : string) (ex : exn) :
  Py.float s = Raise ex -> ex = ValueError s.
Proof.
  unfold Py.float. destruct (Py.sign _) as [neg body].
  destruct (_ || _); [discriminate|].
  destruct (String.eqb _ "nan"); [discriminate|].
  destruct (Py.number body) as [[[m nf] r]|]; [|congruence].
  destruct (Py.exponent r); [discriminate|congruence].
Qed.

(** X4.  A rejected form leaves the list as it was and puts exactly one
    error notice at the end of the queue, whose text shows the first
    failure in the order in which the handler reads the form, as far as the
    text can: a missing field gives the same text whichever field it is,
    and a number that does not parse gives a text with what was typed.  A
    missing name or power hides what comes after it; a power that is not a
    number hides the hours, missing or not; the hours are reported only
    when the name and a power that parses are there. *)
Theorem add_reports_first_failure (form : gmap string string) (now : string)
    (st : state) :
  rejected form ->
  exists ex,
    add form now st =
      ({| electrodomesticos := electrodomesticos st;
          flashes := flashes st ++ [ErrorAlAgregar ex] |},
       Redirect "index") /\
    str ex =
      match form !! "nombre", form !! "potencia" with
      | Some _, Some potencia =>
          match Py.float potencia, form !! "horas" with
          | Raise _, _ => could_not_convert potencia
          | Return _, None => BadRequest
          | Return _, Some horas => could_not_convert horas
          end
      | _, _ => BadRequest
      end.
Proof.
  intros Hr. apply (add_try_Raise form now) in Hr as [ex Hr].
  exists ex. split; [now apply add_Raise|].
  unfold add_try, form_get in Hr.
  destruct (form !! "nombre") as [raw|]; cbn in Hr;
    [|now injection Hr as <-].
  destruct (form !! "potencia") as [potencia|]; cbn in Hr;
    [|now injection Hr as <-].
  destruct (Py.float potencia) as [p|ex'] eqn:Fp; cbn in Hr.
  - destruct (form !! "horas") as [horas|]; cbn in Hr;
      [|now injection Hr as <-].
    destruct (Py.float horas) as [h|ex'] eqn:Fh; cbn in Hr; [discriminate|].
    injection Hr as <-. now apply float_Raise in Fh as ->.
  - injection Hr as <-. now apply float_Raise in Fp as ->.
Qed.

Lemma add_reports_first_failure_witness :
  exists ex,
    add (form_of "Plancha" "abc" "def") "t" initial =
      ({| electrodomesticos := []; flashes := [ErrorAlAgregar ex] |},
       Redirect "index") /\
    str ex = could_not_convert "abc".
Proof.
  exact (add_reports_first_failure (form_of "Plancha" "abc" "def") "t" initial
           (or_intror (or_intror (or_intror (or_introl
              (ex_intro _ "abc"
                 (ex_intro _ (ValueError "abc") (conj eq_refl eq_refl)))))))).
Defined.

(** ** The stored name *)

Section Strip.

Context (sp : ascii -> bool).

Lemma lstrip_starts_with (s : string) :
  starts_with sp (Py.lstrip sp s) = false.
Proof.
  induction s as [|c s IH]; [reflexivity|].
  cbn. destruct (sp c) eqn:E; [assumption|]. cbn. exact E.
Qed.

Lemma rstrip_ends_with (s : string) :
  ends_with sp (Py.rstrip sp s) = false.
Proof.
  induction s as [|c s IH]; [reflexivity|].
  cbn. destruct (Py.rstrip sp s) as [|c' r].
  - destruct (sp c) eqn:E; [reflexivity|]. cbn. exact E.
  - exact IH.
Qed.

Lemma rstrip_starts_with (s : string) :
  starts_with sp s = false -> starts_with sp (Py.rstrip sp s) = false.
Proof.
  destruct s as [|c s]; [reflexivity|].
  cbn. intros E. destruct (Py.rstrip sp s); [now rewrite E|exact E].
Qed.

Lemma lstrip_id (s : string) :
  starts_with sp s = false -> Py.lstrip sp s = s.
Proof. destruct s as [|c s]; [reflexivity|]. cbn. now intros ->. Qed.

Lemma rstrip_id (s : string) :
  ends_with sp s = false -> Py.rstrip sp s = s.
Proof.
  induction s as [|c s IH]; [reflexivity|].
  destruct s as [|c' s'].
  - cbn. now intros ->.
  - intros E. change (ends_with sp (String c' s') = false) in E.
    change (Py.rstrip sp (String c (String c' s')))
      with (match Py.rstrip sp (String c' s') with
            | EmptyString => if sp c then EmptyString else String c EmptyString
            | r => String c r
            end).
    now rewrite (IH E).
Qed.

End Strip.

Lemma strip_trimmed (s : string) :
  starts_with Py.Py_UNICODE_ISSPACE (Py.strip s) = false /\
  ends_with Py.Py_UNICODE_ISSPACE (Py.strip s) = false /\
  Py.strip (Py.strip s) = Py.strip s.
Proof.
  unfold Py.strip.
  pose proof (rstrip_starts_with Py.Py_UNICODE_ISSPACE _
                (lstrip_starts_with Py.Py_UNICODE_ISSPACE s)) as H1.
  pose proof (rstrip_ends_with Py.Py_UNICODE_ISSPACE
                (Py.lstrip Py.Py_UNICODE_ISSPACE s)) as H2.
  repeat split; try assumption.
  now rewrite (lstrip_id _ _ H1), (rstrip_id _ _ H2).
Qed.

(** A property of the entries that every accepted [add] establishes holds
    of every entry of the list after any run that starts with such a list. *)
Lemma run_entries (P : gmap string pyval -> Prop) :
  (forall form now nombre e, add_try form now = Return (nombre, e) -> P e) ->
  forall rs st,
    Forall P (electrodomesticos st) ->
    Forall P (electrodomesticos (run rs st)).
Proof.
  intros HP rs. induction rs as [|r rs IH]; intros st H; [assumption|].
  rewrite run_cons. apply IH.
  destruct r as [|form now|now|]; cbn.
  - destruct (index st) as [[st' resp]|] eqn:Hi; [|assumption].
    cbn. now rewrite (index_store _ _ _ Hi).
  - destruct (add_try form now) as [[nombre e]|ex] eqn:Ha.
    + rewrite (add_Return form now st _ _ Ha). cbn.
      apply Forall_app. split; [assumption|].
      constructor; [|constructor]. now apply (HP form now nombre).
    + now rewrite (add_Raise form now st _ Ha).
  - pose proof (download_csv_store now st) as Hd.
    destruct (download_csv now st). cbn in *. now rewrite Hd.
  - constructor.
Qed.

(** X5.  In every reachable state the name of each entry is a text with no
    blank at either end (possibly the empty text): it is what [strip]
    returned, and stripping it again changes nothing. *)
Theorem stored_names_trimmed (rs : list request) :
  Forall name_trimmed (electrodomesticos (run rs initial)).
Proof.
  apply run_entries; [|constructor].
  intros form now nombre e H.
  apply add_try_inv in H as (raw&_&_&p&h&_&->&_&_&_&_&->).
  exists (Py.strip raw). split; [apply nuevo_nombre|apply strip_trimmed].
Qed.

(** ** The summary and the export side by side *)

Lemma shows_cells (e : gmap string pyval) (r : row) (cells : list pyval) :
  shows e r ->
  Forall2 (fun k c => e !! k = Some c) fieldnames cells ->
  exists ts,
    Some <$> cells =
      [td_nombre r; td_potencia_W r; td_horas_diarias r;
       Some (td_consumo_mensual_kWh r); Some (td_costo_pesos r); Some ts].
Proof.
  intros (Hn&Hp&Hh&Hk&Hc&_) H.
  pose proof (lookups_found e fieldnames cells H) as L.
  assert (exists ts, e !! "timestamp" = Some ts) as [ts Ht].
  { unfold fieldnames in H.
    repeat match goal with
           | H : Forall2 _ (_ :: _) _ |- _ => inversion H; clear H; subst
           end.
    eauto. }
  exists ts. rewrite <- L. cbn.
  now rewrite <- Hn, <- Hp, <- Hh, <- Hk, <- Hc, Ht.
Qed.

(** X6.  In every reachable state the page and the export agree: with an
    empty list the page shows the placeholder and the export is refused
    with the redirect; otherwise the table of the page and the export have
    one row per entry, in the same order, and the first five cells of an
    exported row (name, power, hours, energy, cost) are the values shown in
    the row of the page, unformatted. *)
Theorem export_matches_summary (rs : list request) (now : string) :
  let st := run rs initial in
  exists p,
    (handle GET_index st).2 = Some (Html p) /\
    match card p with
    | NoHay =>
        electrodomesticos st = [] /\
        (download_csv now st).2 = Redirect "index"
    | Tabla rows _ _ =>
        exists table,
          (download_csv now st).2 =
            SendFile "text/csv" ("consumo_" ++ now ++ ".csv")
              ((VStr <$> fieldnames) :: table) /\
          length rows = length (electrodomesticos st) /\
          Forall2 (fun (r : row) (cells : list pyval) =>
                     exists ts,
                       Some <$> cells =
                         [td_nombre r; td_potencia_W r; td_horas_diarias r;
                          Some (td_consumo_mensual_kWh r);
                          Some (td_costo_pesos r); Some ts])
            rows table
    end.
Proof.
  intros st. pose proof (reachable_added rs) as H. fold st in H.
  destruct (index_added st H) as (ks&cs&rows&_&_&Hs&_&Hidx).
  eexists. split; [unfold handle; rewrite Hidx; reflexivity|]. cbn.
  destruct (electrodomesticos st) as [|e es] eqn:E.
  - split; [reflexivity|]. now rewrite (download_csv_empty now st E).
  - rewrite <- E in *.
    destruct (download_csv_added now st) as (table&Hd&Hr);
      [congruence|assumption|].
    exists table. rewrite Hd. split; [reflexivity|]. split.
    + symmetry. now apply Forall2_length in Hs.
    + apply Forall2_flip in Hs.
      eapply Forall2_trans; [|exact Hs|exact Hr].
      intros r x cells Hx Hc. now apply (shows_cells x).
Qed.

(** ** Counting the entries *)

(** X7.  Along a run without [clear_data] the list is the list it started
    from followed by the entries of the accepted [add] requests, in the
    order of the requests; so it grows by exactly the number of accepted
    forms, and reads and refused forms neither add nor remove an entry. *)
Theorem store_is_accepted_entries (rs : list request) (st : state) :
  forallb (fun r => negb (is_clear r)) rs = true ->
  electrodomesticos (run rs st) =
    (electrodomesticos st ++ omap entry_of rs)%list /\
  length (electrodomesticos (run rs st)) =
    (length (electrodomesticos st) + length (List.filter accepts rs))%nat.
Proof.
  revert st. induction rs as [|r rs IH]; intros st Hrs.
  - cbn. rewrite app_nil_r. split; [reflexivity|lia].
  - cbn [forallb] in Hrs. apply andb_prop in Hrs as [Hr Hrs].
    rewrite run_cons. destruct (IH (handle r st).1 Hrs) as [-> ->].
    cbn [List.filter omap list_omap].
    destruct r as [|form now|now|]; cbn [accepts entry_of handle];
      try discriminate.
    + destruct (index st) as [[st' resp]|] eqn:Hi; cbn [fst];
        [rewrite (index_store _ _ _ Hi)|]; split; reflexivity || lia.
    + destruct (add_try form now) as [[nombre e]|ex] eqn:Ha.
      * rewrite (add_Return form now st _ _ Ha). cbn.
        rewrite <- app_assoc, length_app. cbn. split; [reflexivity|lia].
      * rewrite (add_Raise form now st _ Ha). cbn. split; [reflexivity|lia].
    + pose proof (download_csv_store now st) as Hd.
      destruct (download_csv now st). cbn in *. rewrite Hd.
      split; [reflexivity|lia].
Qed.

Lemma store_is_accepted_entries_witness :
  length (electrodomesticos
            (run [POST_add (form_of "Fridge" "150" "24") "t1";
                  GET_index;
                  POST_add (form_of "Plancha" "abc" "1") "t2";
                  GET_download "20250101_120000";
                  POST_add (form_of "Lamp" "10" "5") "t3"] initial)) = 2%nat.
Proof.
  exact (proj2 (store_is_accepted_entries
                  [POST_add (form_of "Fridge" "150" "24") "t1";
                   GET_index;
                   POST_add (form_of "Plancha" "abc" "1") "t2";
                   GET_download "20250101_120000";
                   POST_add (form_of "Lamp" "10" "5") "t3"] initial eq_refl)).
Defined.

(** ** Not-a-number inputs *)

Section NaN.

Local Open Scope float_scope.

Lemma is_nan_add_l (x y : float) : is_nan x = true -> is_nan (x + y) = true.
Proof. rewrite !is_nan_spec, add_spec. now intros ->. Qed.

Lemma is_nan_add_r (x y : float) : is_nan y = true -> is_nan (x + y) = true.
Proof.
  rewrite !is_nan_spec, add_spec. intros ->.
  now destruct (Prim2SF x) as [[|]|[|]| |[|] m e].
Qed.

Lemma is_nan_mul_l (x y : float) : is_nan x = true -> is_nan (x * y) = true.
Proof. rewrite !is_nan_spec, mul_spec. now intros ->. Qed.

Lemma is_nan_mul_r (x y : float) : is_nan y = true -> is_nan (x * y) = true.
Proof.
  rewrite !is_nan_spec, mul_spec. intros ->.
  now destruct (Prim2SF x) as [[|]|[|]| |[|] m e].
Qed.

Lemma is_nan_div_l (x y : float) : is_nan x = true -> is_nan (x / y) = true.
Proof. rewrite !is_nan_spec, div_spec. now intros ->. Qed.

Lemma kWh_mes_nan (p h : float) :
  is_nan p = true \/ is_nan h = true -> is_nan (kWh_mes p h) = true.
Proof.
  intros H. unfold kWh_mes. apply is_nan_mul_l, is_nan_div_l.
  destruct H; [now apply is_nan_mul_l|now apply is_nan_mul_r].
Qed.

Lemma cop_mes_nan (p h : float) :
  is_nan p = true \/ is_nan h = true -> is_nan (cop_mes p h) = true.
Proof. intros H. unfold cop_mes. now apply is_nan_mul_l, kWh_mes_nan. Qed.

Lemma foldl_add_nan_acc (acc : float) (l : list float) :
  is_nan acc = true -> is_nan (foldl PrimFloat.add acc l) = true.
Proof.
  revert acc. induction l as [|x l IH]; intros acc H; [assumption|].
  cbn. apply IH. now apply is_nan_add_l.
Qed.

Lemma foldl_add_nan (acc : float) (l : list float) (x : float) :
  x ∈ l -> is_nan x = true -> is_nan (foldl PrimFloat.add acc l) = true.
Proof.
  intros Hx Hn. revert acc.
  induction l as [|y l IH]; intros acc; [now apply elem_of_nil in Hx|].
  cbn. apply elem_of_cons in Hx as [<-|Hx].
  - apply foldl_add_nan_acc. now apply is_nan_add_r.
  - now apply IH.
Qed.

Lemma float_total_nan (l : list float) (x : float) :
  x ∈ l -> is_nan x = true ->
  exists t, float_total l = VFloat t /\ is_nan t = true.
Proof.
  intros Hx Hn. destruct l as [|y l]; [now apply elem_of_nil in Hx|].
  eexists. split; [reflexivity|]. now apply (foldl_add_nan _ _ x).
Qed.

End NaN.

Lemma run_app (rs1 rs2 : list request) (st : state) :
  run (rs1 ++ rs2) st = run rs2 (run rs1 st).
Proof. unfold run. apply foldl_app. Qed.

(** Only [clear_data] removes an entry. *)
Lemma handle_keeps (r : request) (st : state) (e : gmap string pyval) :
  is_clear r = false ->
  e ∈ electrodomesticos st -> e ∈ electrodomesticos (handle r st).1.
Proof.
  intros Hr He. pose proof (handle_store r st) as H.
  destruct r; try discriminate; try (now rewrite H).
  destruct H as [->|(e'&_&->)]; [assumption|].
  apply elem_of_app. now left.
Qed.

Lemma run_keeps (rs : list request) (st : state) (e : gmap string pyval) :
  forallb (fun r => negb (is_clear r)) rs = true ->
  e ∈ electrodomesticos st -> e ∈ electrodomesticos (run rs st).
Proof.
  revert st. induction rs as [|r rs IH]; intros st Hrs He; [assumption|].
  cbn [forallb] in Hrs. apply andb_prop in Hrs as [Hr Hrs].
  rewrite run_cons. apply IH; [assumption|].
  apply handle_keeps; [|assumption]. now destruct (is_clear r).
Qed.

Lemma field_of_member (k : string) (es : list (gmap string pyval))
    (xs : list float) (e : gmap string pyval) (x : float) :
  Forall2 (fun e x => e !! k = Some (VFloat x)) es xs ->
  e ∈ es -> e !! k = Some (VFloat x) -> x ∈ xs.
Proof.
  intros H He Hx. apply list_elem_of_lookup in He as [i Hi].
  destruct (Forall2_lookup_l _ _ _ _ _ H Hi) as (y&Hy&Hey).
  rewrite Hx in Hey.
  assert (x = y) as ->.
  { exact (f_equal (fun o => match o with
                             | Some (VFloat z) => z
                             | _ => x
                             end) Hey). }
  apply list_elem_of_lookup. now exists i.
Qed.

(** X8.  A power or hours field that parses to NaN (the text "nan") is
    accepted, and from then on, through any requests until the list is
    cleared, both totals that [index] passes to the template are NaN. *)
Theorem nan_input_poisons_totals (rs1 rs2 : list request)
    (form : gmap string string) (now raw potencia horas : string)
    (p h : float) :
  form !! "nombre" = Some raw ->
  form !! "potencia" = Some potencia ->
  form !! "horas" = Some horas ->
  Py.float potencia = Return p ->
  Py.float horas = Return h ->
  is_nan p = true \/ is_nan h = true ->
  forallb (fun r => negb (is_clear r)) rs2 = true ->
  let st := run (rs1 ++ POST_add form now :: rs2) initial in
  exists tk tc,
    index_context st =
      Some {| items := electrodomesticos st; total_consumo := VFloat tk;
              total_costo := VFloat tc; tarifa := 700 |} /\
    is_nan tk = true /\ is_nan tc = true.
Proof.
  intros Hn Hp Hh Fp Fh Hnan Hrs st.
  set (e := nuevo (Py.strip raw) p h (kWh_mes p h) (cop_mes p h) now).
  assert (e ∈ electrodomesticos st) as He.
  { unfold st. rewrite run_app, run_cons. apply run_keeps; [assumption|].
    cbn [handle]. unfold add.
    rewrite (add_try_Return form now raw potencia horas p h Hn Hp Hh Fp Fh).
    cbn. apply elem_of_app. right. now apply list_elem_of_singleton. }
  destruct (index_added st (reachable_added _))
    as (ks&cs&rows&Hk&Hc&_&Hctx&_).
  destruct (float_total_nan ks (kWh_mes p h)) as (tk&Etk&Ntk).
  { apply (field_of_member _ _ _ e _ Hk He). apply nuevo_consumo_mensual_kWh. }
  { now apply kWh_mes_nan. }
  destruct (float_total_nan cs (cop_mes p h)) as (tc&Etc&Ntc).
  { apply (field_of_member _ _ _ e _ Hc He). apply nuevo_costo_pesos. }
  { now apply cop_mes_nan. }
  exists tk, tc. rewrite Hctx, Etk, Etc. now repeat split.
Qed.

Lemma nan_input_poisons_totals_witness :
  exists tk tc,
    total_consumo <$>
      index_context (run [POST_add (form_of "Radio" "nan" "1") "t1";
                          POST_add (form_of "Lamp" "10" "5") "t2"] initial)
      = Some (VFloat tk) /\
    total_costo <$>
      index_context (run [POST_add (form_of "Radio" "nan" "1") "t1";
                          POST_add (form_of "Lamp" "10" "5") "t2"] initial)
      = Some (VFloat tc) /\
    is_nan tk = true /\ is_nan tc = true.
Proof.
  destruct (nan_input_poisons_totals []
              [POST_add (form_of "Lamp" "10" "5") "t2"]
              (form_of "Radio" "nan" "1") "t1" "Radio" "nan" "1" nan 1
              eq_refl eq_refl eq_refl eq_refl eq_refl
              (or_introl eq_refl) eq_refl) as (tk&tc&H&Hk&Hc).
  exists tk, tc. cbn [app] in H. rewrite H. now repeat split.
Defined.

(** ** The list does not depend on the queue, nor on what came before a clear *)

Lemma handle_store_ext (r : request) (st1 st2 : state) :
  electrodomesticos st1 = electrodomesticos st2 ->
  electrodomesticos (handle r st1).1 = electrodomesticos (handle r st2).1.
Proof.
  intros H. destruct r as [|form now|now|]; cbn [handle].
  - assert (forall st, electrodomesticos
                         match index st with
                         | Some (st', resp) => (st', Some resp)
                         | None => (st, None)
                         end.1 = electrodomesticos st) as Hi.
    { intros st. destruct (index st) as [[st' resp]|] eqn:E; [|reflexivity].
      cbn. now apply index_store in E. }
    now rewrite !Hi.
  - unfold add. destruct (add_try form now) as [[nombre e]|ex]; cbn;
      now rewrite H.
  - pose proof (download_csv_store now st1) as H1.
    pose proof (download_csv_store now st2) as H2.
    destruct (download_csv now st1), (download_csv now st2). cbn in *.
    congruence.
  - reflexivity.
Qed.

Lemma run_store_ext (rs : list request) (st1 st2 : state) :
  electrodomesticos st1 = electrodomesticos st2 ->
  electrodomesticos (run rs st1) = electrodomesticos (run rs st2).
Proof.
  revert st1 st2. induction rs as [|r rs IH]; intros st1 st2 H; [assumption|].
  rewrite !run_cons. apply IH. now apply handle_store_ext.
Qed.

(** X9.  What the list holds after a [clear_data] depends only on the
    requests that follow it: whatever the state and the requests before
    the clear, and whatever messages are queued, the list is the one that
    the later requests alone build from the initial state. *)
Theorem clear_forgets_history (rs rs' : list request) (st : state) :
  electrodomesticos (run (rs ++ GET_clear :: rs') st) =
    electrodomesticos (run rs' initial).
Proof. rewrite run_app, run_cons. now apply run_store_ext. Qed.
